(** * graphbus-ui example agents: a shallow embedding and its properties

    The four agent classes under [src/agents] are embedded as Rocq
    definitions, one [Module] per class:

    - [ConversationAgent]       (conversation_agent.py)
    - [IntentClassifierAgent]   (intent_classifier_agent.py)
    - [ResponseGeneratorAgent]  (response_generator_agent.py)
    - [RoomManager]             (room_manager.py)

    Python values that cross an agent boundary are terms of [value]; a
    method is a computation in a state-and-exception monad over the fields
    of [self]; the primitives of Python that can raise ([d[k]],
    [set.remove], hashing a list) raise in the model too. *)

From Stdlib Require Import ZArith QArith Ascii String List Lia.
From stdpp Require Import base strings list gmap fin_maps fin_sets.
Import ListNotations.
Local Open Scope string_scope.
Local Open Scope Z_scope.

(** ** Python values *)

(** A dict literal, in the insertion order Python keeps. *)
Definition dict (V : Type) : Type := list (string * V).

(** The values exchanged between agents.  A float literal such as [0.9] is
    carried as the decimal fraction it is written as. *)
#[warnings="-register-all"]
Inductive value : Type :=
| VBool (b : bool)
| VInt (n : Z)
| VFloat (q : Q)
| VStr (s : string)
| VList (l : list value)
| VDict (d : list (string * value)).

(** [d.get(k, default)]. *)
Fixpoint dict_get {V : Type} (d : dict V) (k : string) (default : V) : V :=
  match d with
  | [] => default
  | (k', v) :: d' => if String.eqb k k' then v else dict_get d' k default
  end.

(** [k in d]. *)
Fixpoint dict_mem {V : Type} (d : dict V) (k : string) : bool :=
  match d with
  | [] => false
  | (k', _) :: d' => String.eqb k k' || dict_mem d' k
  end.

(** ** Python strings

    [str] is modelled by [string]; [lower] folds the ASCII capitals, which
    is what [str.lower] does on text made of ASCII code points.  The case
    mappings [str.lower] has outside ASCII are not modelled. *)

Definition lower_ascii (c : ascii) : ascii :=
  let n := nat_of_ascii c in
  if ((65 <=? n)%nat && (n <=? 90)%nat)%bool then ascii_of_nat (n + 32) else c.

Fixpoint lower (s : string) : string :=
  match s with
  | EmptyString => EmptyString
  | String c s' => String (lower_ascii c) (lower s')
  end.

(** [word in s]: [word] occurs in [s] as a contiguous substring. *)
Fixpoint str_in (word s : string) : bool :=
  String.prefix word s
  || match s with
     | EmptyString => false
     | String _ s' => str_in word s'
     end.

(** ** Python list slicing

    [l[start:]] with the index adjustment of the interpreter: a negative
    [start] counts from the end, and the result is clipped to the list. *)
Definition slice_from {A : Type} (l : list A) (start : Z) : list A :=
  let len := Z.of_nat (length l) in
  let start' :=
    if start <? 0 then Z.max (start + len) 0 else Z.min start len in
  drop (Z.to_nat start') l.

(** ** Exceptions and the method monad *)

Inductive exn : Type :=
| KeyError (key : string)
| TypeError (msg : string)
| AttributeError (msg : string)
| UnknownAgentError (agent : string)
| UnknownOperationError (agent op : string)
| InvalidArgumentsError (names : list string).

(** A method over state [S]: it either raises, or returns a result and the
    state it leaves behind. *)
Definition M (S A : Type) : Type := S -> exn + (A * S).

Definition ret {S A : Type} (a : A) : M S A := fun s => inr (a, s).

Definition bind {S A B : Type} (m : M S A) (k : A -> M S B) : M S B :=
  fun s =>
    match m s with
    | inl e => inl e
    | inr (a, s') => k a s'
    end.

Definition raise {S A : Type} (e : exn) : M S A := fun _ => inl e.

Definition get {S : Type} : M S S := fun s => inr (s, s).

Definition put {S : Type} (s : S) : M S unit := fun _ => inr (tt, s).

Declare Scope method_scope.
Delimit Scope method_scope with method.
Notation "'let*' x ':=' m 'in' k" := (bind m (fun x => k))
  (at level 10, x name, m at level 100, k at level 200) : method_scope.
Local Open Scope method_scope.

(** ** conversation_agent.py *)

Module ConversationAgent.

(** [self.history: List[Dict[str, str]]]. *)
Record t : Type := { history : list (dict string) }.

Definition __init__ : t := {| history := [] |}.

Definition add_message (role content : string) : M t (dict value) :=
  let message := [("role", role); ("content", content)] in
  let* self := get in
  let* _ := put {| history := history self ++ [message] |} in
  let* self := get in
  ret [("success", VBool true);
       ("message_count", VInt (Z.of_nat (length (history self))))].

Definition get_history (limit : Z) : M t (list (dict string)) :=
  let* self := get in
  ret (slice_from (history self) (- limit)).

Definition clear_history : M t (dict value) :=
  let* self := get in
  let count := Z.of_nat (length (history self)) in
  let* _ := put {| history := [] |} in
  ret [("success", VBool true); ("cleared_count", VInt count)].

End ConversationAgent.

(** ** intent_classifier_agent.py *)

Module IntentClassifierAgent.

(** The class has no fields. *)
Definition t : Type := unit.

Definition __init__ : t := tt.

Definition classify_intent (message : string) : M t (dict value) :=
  let message_lower := lower message in
  if existsb (fun word => str_in word message_lower) ["hello"; "hi"; "hey"]
  then ret [("intent", VStr "greeting"); ("confidence", VFloat 0.9)]
  else if existsb (fun word => str_in word message_lower)
                  ["bye"; "goodbye"; "see you"]
  then ret [("intent", VStr "farewell"); ("confidence", VFloat 0.9)]
  else if str_in "?" message
  then ret [("intent", VStr "question"); ("confidence", VFloat 0.7)]
  else ret [("intent", VStr "statement"); ("confidence", VFloat 0.6)].

End IntentClassifierAgent.

(** ** room_manager.py *)

Module RoomManager.

(** [self.rooms: Dict[str, Set[str]]], room_id -> set of user_ids. *)
Record t : Type := { rooms : gmap string (gset string) }.

Definition __init__ : t := {| rooms := ∅ |}.

(** [room_id in self.rooms] *)
Definition rooms_contains (room_id : string) : M t bool :=
  let* self := get in
  ret (bool_decide (is_Some (rooms self !! room_id))).

(** [self.rooms[room_id]], a [KeyError] when the key is absent. *)
Definition rooms_getitem (room_id : string) : M t (gset string) :=
  let* self := get in
  match rooms self !! room_id with
  | Some members => ret members
  | None => raise (KeyError room_id)
  end.

(** [self.rooms[room_id] = members] *)
Definition rooms_setitem (room_id : string) (members : gset string)
  : M t unit :=
  let* self := get in
  put {| rooms := <[room_id := members]> (rooms self) |}.

(** [members.remove(user_id)], a [KeyError] when the element is absent. *)
Definition set_remove (user_id : string) (members : gset string)
  : M t (gset string) :=
  if bool_decide (user_id ∈ members)
  then ret (members ∖ {[user_id]})
  else raise (KeyError user_id).

Definition create_room (room_id : string) : M t (dict value) :=
  let* present := rooms_contains room_id in
  if present
  then ret [("success", VBool false); ("error", VStr "Room already exists")]
  else
    let* _ := rooms_setitem room_id ∅ in
    ret [("success", VBool true); ("room_id", VStr room_id)].

(** [self.rooms[room_id].add(user_id)] updates the set held under
    [room_id]; nothing else holds a reference to that set. *)
Definition join_room (room_id user_id : string) : M t (dict value) :=
  let* present := rooms_contains room_id in
  let* _ := if negb present then rooms_setitem room_id ∅ else ret tt in
  let* members := rooms_getitem room_id in
  let* _ := rooms_setitem room_id (members ∪ {[user_id]}) in
  let* members := rooms_getitem room_id in
  ret [("success", VBool true); ("room_id", VStr room_id);
       ("user_id", VStr user_id);
       ("member_count", VInt (Z.of_nat (size members)))].

Definition leave_room (room_id user_id : string) : M t (dict value) :=
  let* present := rooms_contains room_id in
  let* is_member :=
    if present
    then let* members := rooms_getitem room_id in
         ret (bool_decide (user_id ∈ members))
    else ret false in
  if is_member
  then
    let* members := rooms_getitem room_id in
    let* members' := set_remove user_id members in
    let* _ := rooms_setitem room_id members' in
    ret [("success", VBool true)]
  else ret [("success", VBool false); ("error", VStr "User not in room")].

(** [list(self.rooms.get(room_id, set()))]; the order of the list is the
    set's own. *)
Definition get_room_members (room_id : string) : M t (list string) :=
  let* self := get in
  ret (elements (default ∅ (rooms self !! room_id))).

(** The comprehension over [self.rooms.items()]; the rooms come in the
    order of the map. *)
Definition list_rooms : M t (list (dict value)) :=
  let* self := get in
  ret (map (fun '(room_id, members) =>
              [("room_id", VStr room_id);
               ("member_count", VInt (Z.of_nat (size members)))])
           (map_to_list (rooms self))).

End RoomManager.

(** ** The bus: the live agent instances and the invocation router *)

(** One instance per agent class.  [ResponseGeneratorAgent] has no fields
    and so no component here. *)
Record bus : Type := {
  conversation_agent : ConversationAgent.t;
  intent_classifier_agent : IntentClassifierAgent.t;
  room_manager : RoomManager.t
}.

(** The bus once every agent is activated: each instance as its
    [__init__] leaves it. *)
Definition fresh_bus : bus :=
  {| conversation_agent := ConversationAgent.__init__;
     intent_classifier_agent := IntentClassifierAgent.__init__;
     room_manager := RoomManager.__init__ |}.

Definition set_conversation_agent (c : ConversationAgent.t) (b : bus) : bus :=
  {| conversation_agent := c;
     intent_classifier_agent := intent_classifier_agent b;
     room_manager := room_manager b |}.

Definition set_intent_classifier_agent (c : IntentClassifierAgent.t) (b : bus)
  : bus :=
  {| conversation_agent := conversation_agent b;
     intent_classifier_agent := c;
     room_manager := room_manager b |}.

Definition set_room_manager (r : RoomManager.t) (b : bus) : bus :=
  {| conversation_agent := conversation_agent b;
     intent_classifier_agent := intent_classifier_agent b;
     room_manager := r |}.

(** Run a method of one instance on the bus that holds it. *)
Definition on_instance {T A : Type} (proj : bus -> T) (upd : T -> bus -> bus)
    (m : M T A) : M bus A :=
  fun b =>
    match m (proj b) with
    | inl e => inl e
    | inr (a, t') => inr (a, upd t' b)
    end.

(** Argument validation before dispatch: every required name is present and
    no name outside the signature is passed. *)
Definition check_arguments (required optional : list string)
    (arguments : dict value) : M bus unit :=
  let missing :=
    List.filter (fun name => negb (dict_mem arguments name)) required in
  let unexpected :=
    List.filter (fun name =>
                   negb (existsb (String.eqb name) (required ++ optional)%list))
                (map fst arguments) in
  match (missing ++ unexpected)%list with
  | [] => ret tt
  | names => raise (InvalidArgumentsError names)
  end.

(** The methods are typed by their annotations: [str] and [int] arguments
    are unpacked from [value] at dispatch. *)
Definition as_str (v : value) : M bus string :=
  match v with
  | VStr s => ret s
  | _ => raise (TypeError "str expected")
  end.

Definition as_int (v : value) : M bus Z :=
  match v with
  | VInt n => ret n
  | _ => raise (TypeError "int expected")
  end.

Definition of_message (m : dict string) : value :=
  VDict (map (fun '(k, v) => (k, VStr v)) m).

Definition on_conversation {A : Type} (m : M ConversationAgent.t A)
  : M bus A :=
  on_instance conversation_agent set_conversation_agent m.

Definition on_classifier {A : Type} (m : M IntentClassifierAgent.t A)
  : M bus A :=
  on_instance intent_classifier_agent set_intent_classifier_agent m.

Definition on_rooms {A : Type} (m : M RoomManager.t A) : M bus A :=
  on_instance room_manager set_room_manager m.

(** Modelled from the spec: the [invoke] function of the [graphbus]
    package, which the agents import and which is not part of the sources.
    Following the Invocation Router contract, [invoke] resolves
    [target_name] to the live instance ([UnknownAgentError] otherwise),
    looks [operation_name] up among the operations the agent exposes
    ([UnknownOperationError] otherwise), validates the keyword arguments
    ([InvalidArgumentsError]), runs the operation synchronously on the
    instance and hands its result, or the exception it raised, back to the
    caller.  The agents resolved here are those that call no other agent. *)
Definition invoke (target_name operation_name : string)
    (arguments : dict value) : M bus value :=
  let arg name := dict_get arguments name (VStr "") in
  if String.eqb target_name "ConversationAgent" then
    if String.eqb operation_name "add_message" then
      let* _ := check_arguments ["role"; "content"] [] arguments in
      let* role := as_str (arg "role") in
      let* content := as_str (arg "content") in
      let* r := on_conversation (ConversationAgent.add_message role content) in
      ret (VDict r)
    else if String.eqb operation_name "get_history" then
      let* _ := check_arguments [] ["limit"] arguments in
      let* limit := as_int (dict_get arguments "limit" (VInt 10)) in
      let* r := on_conversation (ConversationAgent.get_history limit) in
      ret (VList (map of_message r))
    else if String.eqb operation_name "clear_history" then
      let* _ := check_arguments [] [] arguments in
      let* r := on_conversation ConversationAgent.clear_history in
      ret (VDict r)
    else raise (UnknownOperationError target_name operation_name)
  else if String.eqb target_name "IntentClassifierAgent" then
    if String.eqb operation_name "classify_intent" then
      let* _ := check_arguments ["message"] [] arguments in
      let* message := as_str (arg "message") in
      let* r := on_classifier (IntentClassifierAgent.classify_intent message) in
      ret (VDict r)
    else raise (UnknownOperationError target_name operation_name)
  else if String.eqb target_name "RoomManager" then
    if String.eqb operation_name "create_room" then
      let* _ := check_arguments ["room_id"] [] arguments in
      let* room_id := as_str (arg "room_id") in
      let* r := on_rooms (RoomManager.create_room room_id) in
      ret (VDict r)
    else if String.eqb operation_name "join_room" then
      let* _ := check_arguments ["room_id"; "user_id"] [] arguments in
      let* room_id := as_str (arg "room_id") in
      let* user_id := as_str (arg "user_id") in
      let* r := on_rooms (RoomManager.join_room room_id user_id) in
      ret (VDict r)
    else if String.eqb operation_name "leave_room" then
      let* _ := check_arguments ["room_id"; "user_id"] [] arguments in
      let* room_id := as_str (arg "room_id") in
      let* user_id := as_str (arg "user_id") in
      let* r := on_rooms (RoomManager.leave_room room_id user_id) in
      ret (VDict r)
    else if String.eqb operation_name "get_room_members" then
      let* _ := check_arguments ["room_id"] [] arguments in
      let* room_id := as_str (arg "room_id") in
      let* r := on_rooms (RoomManager.get_room_members room_id) in
      ret (VList (map VStr r))
    else if String.eqb operation_name "list_rooms" then
      let* _ := check_arguments [] [] arguments in
      let* r := on_rooms RoomManager.list_rooms in
      ret (VList (map VDict r))
    else raise (UnknownOperationError target_name operation_name)
  else raise (UnknownAgentError target_name).

(** ** response_generator_agent.py *)

Module ResponseGeneratorAgent.

(** [result.get(key, default)] on what [invoke] returned. *)
Definition result_get (result : value) (key : string) (default : value)
  : M bus value :=
  match result with
  | VDict d => ret (dict_get d key default)
  | _ => raise (AttributeError "get")
  end.

Definition responses : dict string :=
  [("greeting", "Hello! How can I help you today?");
   ("farewell", "Goodbye! Have a great day!");
   ("question", "That's an interesting question. Let me think about that...");
   ("statement", "I understand. Tell me more!")].

(** [responses.get(intent, default)]: the keys are strings, so any other
    hashable value misses, and a list or dict cannot be hashed. *)
Definition responses_get (intent : value) (default : string)
  : M bus string :=
  match intent with
  | VStr s => ret (dict_get responses s default)
  | VList _ | VDict _ => raise (TypeError "unhashable type")
  | _ => ret default
  end.

Definition generate_response (message : string) : M bus (dict value) :=
  let* intent_result :=
    invoke "IntentClassifierAgent" "classify_intent"
           [("message", VStr message)] in
  let* intent := result_get intent_result "intent" (VStr "unknown") in
  let* response_text :=
    responses_get intent "I'm not sure how to respond to that." in
  let* _ :=
    invoke "ConversationAgent" "add_message"
           [("role", VStr "user"); ("content", VStr message)] in
  let* _ :=
    invoke "ConversationAgent" "add_message"
           [("role", VStr "assistant"); ("content", VStr response_text)] in
  let* confidence := result_get intent_result "confidence" (VFloat 0.0) in
  ret [("response", VStr response_text);
       ("intent", intent);
       ("confidence", confidence)].

End ResponseGeneratorAgent.

(** ** Traces of calls, for the properties that speak of them *)

(** [N] calls of [add_message], one per (role, content) pair, in order. *)
Fixpoint add_messages (msgs : list (string * string))
  : M ConversationAgent.t unit :=
  match msgs with
  | [] => ret tt
  | (role, content) :: msgs' =>
      let* _ := ConversationAgent.add_message role content in
      add_messages msgs'
  end.

(** The record [add_message] stores for a (role, content) pair. *)
Definition to_message (rc : string * string) : dict string :=
  [("role", rc.1); ("content", rc.2)].

(** The statement "after the calls [msgs] on a fresh agent,
    [get_history(limit)] returns exactly [min(limit, N)] most-recent
    records, in the order they were added". *)
Definition returns_recent_window (msgs : list (string * string)) (limit : Z)
  : Prop :=
  exists (window : list (dict string)) (self' : ConversationAgent.t),
    (let* _ := add_messages msgs in ConversationAgent.get_history limit)
      ConversationAgent.__init__ = inr (window, self')
    /\ Z.of_nat (length window) = Z.min limit (Z.of_nat (length msgs))
    /\ exists older, map to_message msgs = (older ++ window)%list.

(** The operations of [RoomManager] as data, to speak of every sequence of
    calls. *)
Inductive room_op : Type :=
| CreateRoom (room_id : string)
| JoinRoom (room_id user_id : string)
| LeaveRoom (room_id user_id : string)
| GetRoomMembers (room_id : string)
| ListRooms.

Definition run_room_op (o : room_op) : M RoomManager.t value :=
  match o with
  | CreateRoom room_id =>
      let* r := RoomManager.create_room room_id in ret (VDict r)
  | JoinRoom room_id user_id =>
      let* r := RoomManager.join_room room_id user_id in ret (VDict r)
  | LeaveRoom room_id user_id =>
      let* r := RoomManager.leave_room room_id user_id in ret (VDict r)
  | GetRoomMembers room_id =>
      let* r := RoomManager.get_room_members room_id in
      ret (VList (map VStr r))
  | ListRooms =>
      let* r := RoomManager.list_rooms in ret (VList (map VDict r))
  end.

Fixpoint run_room_ops (ops : list room_op) : M RoomManager.t (list value) :=
  match ops with
  | [] => ret []
  | o :: ops' =>
      let* v := run_room_op o in
      let* vs := run_room_ops ops' in
      ret (v :: vs)
  end.

(** The room a call creates or joins, if it is such a call. *)
Definition opened_room (o : room_op) : option string :=
  match o with
  | CreateRoom room_id | JoinRoom room_id _ => Some room_id
  | _ => None
  end.

(** The members of a room, [set()] when the room is absent. *)
Definition members_of (self : RoomManager.t) (room_id : string)
  : gset string :=
  default ∅ (RoomManager.rooms self !! room_id).

(** The failure results of [RoomManager]. *)
Definition failure (reason : string) : dict value :=
  [("success", VBool false); ("error", VStr reason)].

(** The operations of [ConversationAgent] as data. *)
Inductive conversation_op : Type :=
| AddMessage (role content : string)
| GetHistory (limit : Z)
| ClearHistory.

Definition run_conversation_op (o : conversation_op)
  : M ConversationAgent.t value :=
  match o with
  | AddMessage role content =>
      let* r := ConversationAgent.add_message role content in ret (VDict r)
  | GetHistory limit =>
      let* r := ConversationAgent.get_history limit in
      ret (VList (map of_message r))
  | ClearHistory =>
      let* r := ConversationAgent.clear_history in ret (VDict r)
  end.

Fixpoint run_conversation_ops (ops : list conversation_op)
  : M ConversationAgent.t (list value) :=
  match ops with
  | [] => ret []
  | o :: ops' =>
      let* v := run_conversation_op o in
      let* vs := run_conversation_ops ops' in
      ret (v :: vs)
  end.

(** The records the [add_message] calls of a sequence store, in call
    order. *)
Fixpoint added_records (ops : list conversation_op) : list (dict string) :=
  match ops with
  | [] => []
  | AddMessage role content :: ops' =>
      to_message (role, content) :: added_records ops'
  | _ :: ops' => added_records ops'
  end.

Definition is_clear (o : conversation_op) : bool :=
  match o with
  | ClearHistory => true
  | _ => false
  end.

(** * Properties *)

(** ** Slicing *)

Section Slicing.
Context {A : Type}.
Implicit Types (l : list A) (limit : Z).

Lemma slice_from_zero l : slice_from l 0 = l.
Proof.
  unfold slice_from. simpl. rewrite Z.min_l by lia. reflexivity.
Qed.

Lemma slice_from_nil start : slice_from (@nil A) start = [].
Proof. unfold slice_from. apply drop_nil. Qed.

(** A positive [limit] keeps the last [min limit (length l)] elements. *)
Lemma slice_from_neg l limit :
  1 <= limit ->
  slice_from l (- limit)
  = drop (length l - Z.to_nat (Z.min limit (Z.of_nat (length l)))) l.
Proof.
  intros Hlimit. unfold slice_from.
  destruct (Z.ltb_spec (- limit) 0) as [_ | Hge]; [| lia].
  f_equal. lia.
Qed.

Lemma slice_from_neg_length l limit :
  1 <= limit ->
  Z.of_nat (length (slice_from l (- limit)))
  = Z.min limit (Z.of_nat (length l)).
Proof.
  intros Hlimit. rewrite slice_from_neg by assumption.
  rewrite length_drop. lia.
Qed.

(** A negative [limit] drops the first [- limit] elements instead. *)
Lemma slice_from_pos l limit :
  limit <= 0 -> slice_from l (- limit) = drop (Z.to_nat (- limit)) l.
Proof.
  intros Hlimit. unfold slice_from.
  destruct (Z.ltb_spec (- limit) 0) as [Hlt | _]; [lia |].
  destruct (Z.min_spec (- limit) (Z.of_nat (length l)))
    as [[_ ->] | [Hle ->]]; [reflexivity |].
  rewrite Nat2Z.id, !drop_ge by lia. reflexivity.
Qed.
End Slicing.

(** ** ConversationAgent *)

Section Conversation.
Import ConversationAgent.

Lemma add_message_run role content self :
  add_message role content self
  = inr ([("success", VBool true);
          ("message_count", VInt (Z.of_nat (length (history self) + 1)))],
         {| history := history self ++ [to_message (role, content)] |}).
Proof.
  unfold add_message, bind, get, put, ret. simpl.
  rewrite length_app. reflexivity.
Qed.

Lemma add_messages_run msgs self :
  add_messages msgs self
  = inr (tt, {| history := history self ++ map to_message msgs |}).
Proof.
  revert self. induction msgs as [| [role content] msgs IH]; intros self.
  - simpl. unfold ret. rewrite app_nil_r. destruct self; reflexivity.
  - simpl. unfold bind at 1. rewrite add_message_run, IH. simpl.
    rewrite <- app_assoc. reflexivity.
Qed.

Lemma get_history_run limit self :
  get_history limit self = inr (slice_from (history self) (- limit), self).
Proof. reflexivity. Qed.

(** With [limit <= 0] the slice starts at index [- limit] from the front:
    the call returns the history without its first [- limit] records. *)
Lemma get_history_nonpositive_limit limit self :
  limit <= 0 ->
  get_history limit self
  = inr (drop (Z.to_nat (- limit)) (history self), self).
Proof.
  intros Hlimit. rewrite get_history_run, slice_from_pos by assumption.
  reflexivity.
Qed.

End Conversation.

Section ConversationClaims.
Import ConversationAgent.

(** C1, as the code has it: [get_history(0)] on a history of one record
    returns that record, not the empty sequence.  The slice [[-limit:]]
    starts at index 0 when [limit] is 0, so the whole history comes back. *)
Theorem get_history_limit_zero_returns_history :
  get_history 0 {| history := [to_message ("user", "hello")] |}
  = inr ([to_message ("user", "hello")],
         {| history := [to_message ("user", "hello")] |})
  /\ [to_message ("user", "hello")] <> ([] : list (dict string)).
Proof.
  split.
  - rewrite get_history_run. simpl history. change (- 0) with 0.
    rewrite slice_from_zero. reflexivity.
  - discriminate.
Qed.

(** C2, as the code has it: after two [add_message] calls on a fresh
    agent, [get_history(0)] returns both records, where
    [min(0, 2) = 0] records are asked for.  The slice [[-limit:]] starts
    at index 0 when [limit] is 0; this is the slip seen under C1, reached
    here through the calls the statement speaks of. *)
Theorem get_history_limit_zero_after_adds :
  (let* _ := add_messages [("user", "a"); ("assistant", "b")] in
   get_history 0) __init__
  = inr ([to_message ("user", "a"); to_message ("assistant", "b")],
         {| history := [to_message ("user", "a");
                        to_message ("assistant", "b")] |})
  /\ ~ returns_recent_window [("user", "a"); ("assistant", "b")] 0.
Proof.
  assert (Hrun :
            (let* _ := add_messages [("user", "a"); ("assistant", "b")] in
             get_history 0) __init__
            = inr ([to_message ("user", "a"); to_message ("assistant", "b")],
                   {| history := [to_message ("user", "a");
                                  to_message ("assistant", "b")] |})).
  { unfold bind. rewrite add_messages_run, get_history_run.
    change (- 0) with 0. rewrite slice_from_zero. reflexivity. }
  split; [exact Hrun |].
  intros (window & self' & Hwindow & Hlength & _).
  rewrite Hrun in Hwindow. injection Hwindow as <- _.
  cbn [length] in Hlength. lia.
Qed.

(** X20: for every sequence of [N] [add_message] calls on a fresh
    agent and every [limit >= 1], [get_history(limit)] returns exactly
    [min(limit, N)] records, which are the most recent ones in the order
    they were added. *)
Theorem get_history_recent_window msgs limit :
  1 <= limit -> returns_recent_window msgs limit.
Proof.
  intros Hlimit. unfold returns_recent_window, bind.
  rewrite add_messages_run, get_history_run. simpl history.
  eexists _, _. split; [reflexivity |]. split.
  - rewrite slice_from_neg_length, length_map by assumption. reflexivity.
  - rewrite slice_from_neg by assumption.
    eexists. symmetry. apply take_drop.
Qed.

Lemma get_history_recent_window_witness :
  1 <= 2
  /\ returns_recent_window
       [("user", "a"); ("assistant", "b"); ("user", "c")] 2.
Proof.
  split; [lia |].
  apply (get_history_recent_window
           [("user", "a"); ("assistant", "b"); ("user", "c")] 2).
  lia.
Defined.

(** C7: on a history of [N] records, [clear_history()] returns success
    with [cleared_count = N] and leaves the history empty, so that a
    following [get_history(limit)] returns no record, whatever [limit]. *)
Theorem clear_history_resets self limit :
  (let* result := clear_history in
   let* window := get_history limit in
   ret (result, window)) self
  = inr (([("success", VBool true);
           ("cleared_count", VInt (Z.of_nat (length (history self))))],
          []),
         {| history := [] |}).
Proof.
  unfold bind at 1. unfold clear_history, bind, get, put, ret. simpl.
  rewrite slice_from_nil. reflexivity.
Qed.

End ConversationClaims.

(** ** IntentClassifierAgent and ResponseGeneratorAgent *)

Lemma set_intent_classifier_agent_id b :
  set_intent_classifier_agent (intent_classifier_agent b) b = b.
Proof. destruct b; reflexivity. Qed.

(** A call of [classify_intent] returns and leaves the instance as it was. *)
Lemma classify_intent_pure message :
  exists result,
    forall self,
      IntentClassifierAgent.classify_intent message self = inr (result, self).
Proof.
  unfold IntentClassifierAgent.classify_intent.
  repeat match goal with
         | |- context [if ?c then _ else _] => destruct c
         end;
    eexists; intros self; reflexivity.
Qed.

Lemma invoke_classify_intent message b :
  invoke "IntentClassifierAgent" "classify_intent" [("message", VStr message)] b
  = match IntentClassifierAgent.classify_intent message
            (intent_classifier_agent b) with
    | inl e => inl e
    | inr (r, c) => inr (VDict r, set_intent_classifier_agent c b)
    end.
Proof.
  unfold invoke. simpl. unfold bind at 1. simpl.
  unfold on_classifier, on_instance, bind, ret.
  destruct (IntentClassifierAgent.classify_intent message
              (intent_classifier_agent b)) as [e | [r c]]; reflexivity.
Qed.

Lemma invoke_add_message role content b :
  invoke "ConversationAgent" "add_message"
         [("role", VStr role); ("content", VStr content)] b
  = inr (VDict [("success", VBool true);
                ("message_count",
                 VInt (Z.of_nat
                         (length (ConversationAgent.history
                                    (conversation_agent b)) + 1)))],
         set_conversation_agent
           {| ConversationAgent.history :=
                ConversationAgent.history (conversation_agent b)
                ++ [to_message (role, content)] |} b).
Proof.
  unfold invoke. simpl. unfold bind at 1. simpl.
  unfold on_conversation, on_instance, bind, ret. simpl.
  rewrite length_app. reflexivity.
Qed.

(** C4: on the message "hello", [classify_intent] returns intent
    "greeting" with confidence 0.9, and [generate_response("hello")]
    returns the fixed greeting text and appends exactly two records to the
    conversation history: the user record, then the assistant record. *)
Theorem generate_response_hello b :
  (forall self,
     IntentClassifierAgent.classify_intent "hello" self
     = inr ([("intent", VStr "greeting"); ("confidence", VFloat 0.9)], self))
  /\ ResponseGeneratorAgent.generate_response "hello" b
     = inr ([("response", VStr "Hello! How can I help you today?");
             ("intent", VStr "greeting");
             ("confidence", VFloat 0.9)],
            set_conversation_agent
              {| ConversationAgent.history :=
                   ConversationAgent.history (conversation_agent b)
                   ++ [ [("role", "user"); ("content", "hello")];
                        [("role", "assistant");
                         ("content", "Hello! How can I help you today?")] ] |}
              b).
Proof.
  split; [intros self; reflexivity |].
  unfold ResponseGeneratorAgent.generate_response.
  unfold bind at 1. rewrite invoke_classify_intent.
  change (IntentClassifierAgent.classify_intent "hello"
            (intent_classifier_agent b))
    with (@inr exn _ ([("intent", VStr "greeting"); ("confidence", VFloat 0.9)],
                      intent_classifier_agent b)).
  cbv beta iota. rewrite set_intent_classifier_agent_id.
  unfold bind at 1. simpl ResponseGeneratorAgent.result_get.
  unfold ret at 1. unfold bind at 1.
  simpl ResponseGeneratorAgent.responses_get. unfold ret at 1.
  unfold bind at 1. rewrite invoke_add_message.
  unfold bind at 1. rewrite invoke_add_message.
  destruct b as [[h] c r]. simpl. unfold bind, ret. simpl.
  unfold set_conversation_agent. simpl.
  rewrite <- app_assoc. reflexivity.
Qed.

(** C8: [classify_intent] is deterministic and stateless.  The result of
    a call, made directly or through [invoke], is fixed by the message
    alone: calls with the same message return the same
    [{intent, confidence}] mapping in every state of the instance and of
    the bus, and each call leaves the state it ran in unchanged. *)
Theorem classify_intent_deterministic_stateless message :
  exists result,
    (forall self,
       IntentClassifierAgent.classify_intent message self
       = inr (result, self))
    /\ (forall b,
          invoke "IntentClassifierAgent" "classify_intent"
                 [("message", VStr message)] b
          = inr (VDict result, b))
    /\ exists intent confidence,
         result = [("intent", VStr intent); ("confidence", VFloat confidence)].
Proof.
  destruct (classify_intent_pure message) as [result Hresult].
  exists result. split; [exact Hresult |]. split.
  - intros b. rewrite invoke_classify_intent, Hresult.
    rewrite set_intent_classifier_agent_id. reflexivity.
  - specialize (Hresult tt). revert Hresult.
    unfold IntentClassifierAgent.classify_intent.
    repeat match goal with
           | |- context [if ?c then _ else _] => destruct c
           end;
      intros [= <-]; eexists _, _; reflexivity.
Qed.

(** ** RoomManager *)

Section Rooms.
Import RoomManager.
Implicit Types (self : t) (room_id user_id : string).

Lemma create_room_run self room_id :
  create_room room_id self
  = match rooms self !! room_id with
    | Some _ => inr (failure "Room already exists", self)
    | None =>
        inr ([("success", VBool true); ("room_id", VStr room_id)],
             {| rooms := <[room_id := ∅]> (rooms self) |})
    end.
Proof.
  unfold create_room, rooms_contains, rooms_setitem, bind, get, put, ret.
  destruct self as [rs]. cbn [rooms].
  destruct (rs !! room_id) as [members |] eqn:Hlookup.
  - rewrite bool_decide_eq_true_2 by eauto. reflexivity.
  - rewrite bool_decide_eq_false_2 by (intros [? ?]; discriminate).
    reflexivity.
Qed.

Lemma join_room_run self room_id user_id :
  join_room room_id user_id self
  = inr ([("success", VBool true); ("room_id", VStr room_id);
          ("user_id", VStr user_id);
          ("member_count",
           VInt (Z.of_nat (size (members_of self room_id ∪ {[user_id]}))))],
         {| rooms :=
              <[room_id := members_of self room_id ∪ {[user_id]}]>
                (rooms self) |}).
Proof.
  unfold join_room, rooms_contains, rooms_getitem, rooms_setitem.
  unfold members_of, bind, get, put, ret.
  destruct self as [rs]. cbn [rooms].
  destruct (rs !! room_id) as [members |] eqn:Hlookup.
  - rewrite bool_decide_eq_true_2 by eauto. cbn [negb rooms].
    rewrite Hlookup. cbn [rooms]. rewrite (lookup_insert_eq rs room_id). reflexivity.
  - rewrite bool_decide_eq_false_2 by (intros [? ?]; discriminate).
    cbn [negb rooms]. rewrite (lookup_insert_eq rs room_id). cbn [rooms].
    rewrite (insert_insert_eq rs room_id).
    rewrite (lookup_insert_eq rs room_id). reflexivity.
Qed.

Lemma leave_room_run self room_id user_id :
  leave_room room_id user_id self
  = if bool_decide (user_id ∈ members_of self room_id)
    then inr ([("success", VBool true)],
              {| rooms :=
                   <[room_id := members_of self room_id ∖ {[user_id]}]>
                     (rooms self) |})
    else inr (failure "User not in room", self).
Proof.
  unfold leave_room, rooms_contains, rooms_getitem, rooms_setitem.
  unfold set_remove, members_of, bind, get, put, ret.
  destruct self as [rs]. cbn [rooms].
  destruct (rs !! room_id) as [members |] eqn:Hlookup.
  - rewrite bool_decide_eq_true_2 by eauto.
    cbn [rooms default from_option id]. rewrite Hlookup. cbv beta iota.
    destruct (bool_decide (user_id ∈ members)) eqn:Hmember.
    + cbn [rooms]. rewrite Hlookup. cbv beta iota.
      rewrite Hmember. reflexivity.
    + reflexivity.
  - rewrite bool_decide_eq_false_2 by (intros [? ?]; discriminate).
    cbn [default from_option id].
    rewrite bool_decide_eq_false_2 by set_solver.
    reflexivity.
Qed.

Lemma get_room_members_run self room_id :
  get_room_members room_id self
  = inr (elements (members_of self room_id), self).
Proof. reflexivity. Qed.

Lemma list_rooms_run self :
  exists result, list_rooms self = inr (result, self).
Proof. eexists. reflexivity. Qed.

End Rooms.

Section RoomClaims.
Import RoomManager.
Implicit Types (self : t) (room_id user_id : string).

Lemma members_of_lookup self room_id members :
  rooms self !! room_id = Some members -> members_of self room_id = members.
Proof. unfold members_of. intros ->. reflexivity. Qed.

Lemma members_of_absent self room_id :
  rooms self !! room_id = None -> members_of self room_id = ∅.
Proof. unfold members_of. intros ->. reflexivity. Qed.

Lemma members_of_insert rs room_id members :
  members_of {| rooms := <[room_id := members]> rs |} room_id = members.
Proof. apply members_of_lookup. cbn [rooms]. apply lookup_insert_eq. Qed.

(** [list_rooms] reports every room with the size of its member set. *)
Lemma list_rooms_reports self room_id members :
  rooms self !! room_id = Some members ->
  exists result,
    list_rooms self = inr (result, self)
    /\ In [("room_id", VStr room_id);
           ("member_count", VInt (Z.of_nat (size members)))] result.
Proof.
  intros Hlookup. eexists. split; [reflexivity |].
  apply (in_map (fun '(room_id, members) =>
                   [("room_id", VStr room_id);
                    ("member_count", VInt (Z.of_nat (size members)))])
                _ (room_id, members)).
  apply list_elem_of_In, elem_of_map_to_list. exact Hlookup.
Qed.

(** C3: from every state without a room "r1", [join_room("r1","u1")]
    creates the room and returns member_count 1; the following
    [leave_room("r1","u1")] returns success and leaves the room with no
    member (which [get_room_members] and [list_rooms] report as an empty
    list and member_count 0); and [leave_room("r1","u2")], for the user
    "u2" who never joined, returns success false, before as well as after
    "u1" has left. *)
Theorem join_leave_scenario self :
  rooms self !! "r1" = None ->
  exists joined left rooms_listed,
    join_room "r1" "u1" self
    = inr ([("success", VBool true); ("room_id", VStr "r1");
            ("user_id", VStr "u1"); ("member_count", VInt 1)], joined)
    /\ rooms joined !! "r1" = Some {[ "u1" ]}
    /\ leave_room "r1" "u1" joined = inr ([("success", VBool true)], left)
    /\ rooms left !! "r1" = Some ∅
    /\ get_room_members "r1" left = inr ([], left)
    /\ list_rooms left = inr (rooms_listed, left)
    /\ In [("room_id", VStr "r1"); ("member_count", VInt 0)] rooms_listed
    /\ leave_room "r1" "u2" joined
       = inr ([("success", VBool false); ("error", VStr "User not in room")],
              joined)
    /\ leave_room "r1" "u2" left
       = inr ([("success", VBool false); ("error", VStr "User not in room")],
              left).
Proof.
  intros Habsent. destruct self as [rs]. cbn [rooms] in Habsent.
  assert (Hu : ("u2" : string) <> "u1") by discriminate.
  destruct (list_rooms_reports {| rooms := <[ "r1" := ∅ ]> rs |} "r1" ∅)
    as (listed & Hlisted & Hin); [apply lookup_insert_eq |].
  exists {| rooms := <[ "r1" := {[ "u1" ]} ]> rs |},
         {| rooms := <[ "r1" := ∅ ]> rs |}, listed.
  repeat split.
  - rewrite join_room_run, members_of_absent by exact Habsent.
    cbn [rooms]. rewrite (left_id_L ∅ (∪)), size_singleton. reflexivity.
  - apply lookup_insert_eq.
  - rewrite leave_room_run, members_of_insert.
    rewrite bool_decide_eq_true_2 by set_solver. cbn [rooms].
    rewrite (insert_insert_eq rs "r1").
    replace ({[ "u1" ]} ∖ {[ "u1" ]} : gset string) with (∅ : gset string)
      by set_solver.
    reflexivity.
  - apply lookup_insert_eq.
  - rewrite get_room_members_run, members_of_insert, elements_empty.
    reflexivity.
  - exact Hlisted.
  - rewrite size_empty in Hin. exact Hin.
  - rewrite leave_room_run, members_of_insert.
    rewrite bool_decide_eq_false_2 by set_solver. reflexivity.
  - rewrite leave_room_run, members_of_insert.
    rewrite bool_decide_eq_false_2 by set_solver. reflexivity.
Qed.

Lemma join_leave_scenario_witness :
  rooms __init__ !! "r1" = None
  /\ exists joined left rooms_listed,
       join_room "r1" "u1" __init__
       = inr ([("success", VBool true); ("room_id", VStr "r1");
               ("user_id", VStr "u1"); ("member_count", VInt 1)], joined)
       /\ rooms joined !! "r1" = Some {[ "u1" ]}
       /\ leave_room "r1" "u1" joined = inr ([("success", VBool true)], left)
       /\ rooms left !! "r1" = Some ∅
       /\ get_room_members "r1" left = inr ([], left)
       /\ list_rooms left = inr (rooms_listed, left)
       /\ In [("room_id", VStr "r1"); ("member_count", VInt 0)] rooms_listed
       /\ leave_room "r1" "u2" joined
          = inr ([("success", VBool false);
                  ("error", VStr "User not in room")], joined)
       /\ leave_room "r1" "u2" left
          = inr ([("success", VBool false);
                  ("error", VStr "User not in room")], left).
Proof.
  split; [reflexivity |].
  apply (join_leave_scenario __init__). reflexivity.
Defined.

(** C6: the soft failures return a result and change nothing.
    [create_room] on a room that exists, and [leave_room] on a room that
    does not exist or on a user who is not in the room, do not raise: each
    returns the mapping with success false and the error reason, and the
    rooms are as they were before the call. *)
Theorem soft_failures_keep_state self room_id user_id :
  (is_Some (rooms self !! room_id) ->
   create_room room_id self
   = inr ([("success", VBool false); ("error", VStr "Room already exists")],
          self))
  /\ (rooms self !! room_id = None
      \/ (exists members,
            rooms self !! room_id = Some members /\ user_id ∉ members) ->
      leave_room room_id user_id self
      = inr ([("success", VBool false); ("error", VStr "User not in room")],
             self)).
Proof.
  split.
  - intros [members Hlookup]. rewrite create_room_run, Hlookup. reflexivity.
  - intros Hout. rewrite leave_room_run.
    rewrite bool_decide_eq_false_2; [reflexivity |].
    destruct Hout as [Habsent | (members & Hlookup & Hnot)].
    + rewrite members_of_absent by exact Habsent. set_solver.
    + rewrite (members_of_lookup _ _ _ Hlookup). exact Hnot.
Qed.

Lemma soft_failures_keep_state_witness :
  let self := {| rooms := {[ "r1" := {[ "u1" ]} ]} |} in
  create_room "r1" self
  = inr ([("success", VBool false); ("error", VStr "Room already exists")],
         self)
  /\ leave_room "r2" "u1" self
     = inr ([("success", VBool false); ("error", VStr "User not in room")],
            self)
  /\ leave_room "r1" "u2" self
     = inr ([("success", VBool false); ("error", VStr "User not in room")],
            self).
Proof.
  intros self. split; [| split].
  - apply (soft_failures_keep_state self "r1" "u1").
    exists {[ "u1" ]}. reflexivity.
  - apply (soft_failures_keep_state self "r2" "u1").
    left. reflexivity.
  - apply (soft_failures_keep_state self "r1" "u2").
    right. exists {[ "u1" ]}. split; [reflexivity |].
    intros Hin. apply elem_of_singleton in Hin. discriminate.
Defined.

(** C9: [join_room] is idempotent.  From every state, a second
    [join_room(room_id, user_id)] right after the first leaves the rooms
    exactly as the first call left them, and returns the same result:
    success true with the same member_count. *)
Theorem join_room_idempotent self room_id user_id :
  exists member_count joined,
    join_room room_id user_id self
    = inr ([("success", VBool true); ("room_id", VStr room_id);
            ("user_id", VStr user_id);
            ("member_count", VInt member_count)], joined)
    /\ join_room room_id user_id joined
       = inr ([("success", VBool true); ("room_id", VStr room_id);
               ("user_id", VStr user_id);
               ("member_count", VInt member_count)], joined).
Proof.
  eexists _, _. split; [apply join_room_run |].
  rewrite join_room_run, members_of_insert. cbn [rooms].
  rewrite (insert_insert_eq (rooms self) room_id).
  assert (Hagain : members_of self room_id ∪ {[user_id]} ∪ {[user_id]}
                   = members_of self room_id ∪ {[user_id]}).
  { rewrite <- (assoc_L (∪)), (idemp_L (∪)). reflexivity. }
  rewrite Hagain. reflexivity.
Qed.

(** One call: it returns, every room that was there is still there, the
    room it creates or joins is there, and no other room appears. *)
Lemma run_room_op_keys o self :
  exists v self',
    run_room_op o self = inr (v, self')
    /\ (forall r, is_Some (rooms self !! r) -> is_Some (rooms self' !! r))
    /\ (forall r, opened_room o = Some r -> is_Some (rooms self' !! r))
    /\ (forall r, opened_room o <> Some r ->
                  rooms self !! r = None -> rooms self' !! r = None).
Proof.
  destruct o as [room_id | room_id user_id | room_id user_id | room_id |];
    cbn [run_room_op opened_room]; unfold bind at 1.
  - rewrite create_room_run.
    destruct (rooms self !! room_id) as [members |] eqn:Hlookup.
    + eexists _, _. split; [reflexivity |]. repeat split; auto.
      intros r [= <-]. eauto.
    + eexists _, _. split; [reflexivity |]. cbn [rooms]. repeat split.
      * intros r Hr. apply lookup_insert_is_Some'. auto.
      * intros r [= <-]. apply lookup_insert_is_Some'. auto.
      * intros r Hne Hr. rewrite lookup_insert_ne by congruence. exact Hr.
  - rewrite join_room_run.
    eexists _, _. split; [reflexivity |]. cbn [rooms]. repeat split.
    + intros r Hr. apply lookup_insert_is_Some'. auto.
    + intros r [= <-]. apply lookup_insert_is_Some'. auto.
    + intros r Hne Hr. rewrite lookup_insert_ne by congruence. exact Hr.
  - rewrite leave_room_run.
    destruct (bool_decide (user_id ∈ members_of self room_id)) eqn:Hmember.
    + apply bool_decide_eq_true_1 in Hmember.
      assert (Hpresent : is_Some (rooms self !! room_id)).
      { unfold members_of in Hmember.
        destruct (rooms self !! room_id); [eauto | set_solver]. }
      eexists _, _. split; [reflexivity |]. cbn [rooms]. repeat split.
      * intros r Hr. apply lookup_insert_is_Some'. auto.
      * discriminate.
      * intros r _ Hr. rewrite lookup_insert_ne; [exact Hr |].
        intros <-. rewrite Hr in Hpresent. destruct Hpresent; discriminate.
    + eexists _, _. split; [reflexivity |]. repeat split; auto.
      discriminate.
  - rewrite get_room_members_run.
    eexists _, _. split; [reflexivity |]. repeat split; auto. discriminate.
  - destruct (list_rooms_run self) as [result ->].
    eexists _, _. split; [reflexivity |]. repeat split; auto. discriminate.
Qed.

(** The same along a sequence of calls. *)
Lemma run_room_ops_keys ops self :
  exists results self',
    run_room_ops ops self = inr (results, self')
    /\ (forall r, is_Some (rooms self !! r) -> is_Some (rooms self' !! r))
    /\ (forall o r, In o ops -> opened_room o = Some r ->
                    is_Some (rooms self' !! r))
    /\ (forall r, Forall (fun o => opened_room o <> Some r) ops ->
                  rooms self !! r = None -> rooms self' !! r = None).
Proof.
  revert self. induction ops as [| o ops IH]; intros self.
  - exists [], self. split; [reflexivity |]. repeat split; auto.
    intros o r [].
  - destruct (run_room_op_keys o self)
      as (v & mid & Hrun & Hkept & Hopened & Hfresh).
    destruct (IH mid) as (vs & self' & Hruns & Hkept' & Hopened' & Hfresh').
    exists (v :: vs), self'. split.
    + cbn [run_room_ops]. unfold bind at 1. rewrite Hrun.
      unfold bind at 1. rewrite Hruns. reflexivity.
    + repeat split.
      * auto.
      * intros o' r [<- | Hin] Hopen; eauto.
      * intros r Hall Hr. inversion Hall; subst. auto.
Qed.

(** C5: the invariant of the rooms mapping holds along every sequence of
    [create_room], [join_room], [leave_room], [get_room_members] and
    [list_rooms] calls, from every state: each call returns; a room_id
    that is a key before the calls, or that one of the calls creates or
    joins, is a key after them; and the members of each room, as
    [get_room_members] lists them, contain no user_id twice. *)
Theorem rooms_invariant ops self :
  exists results self',
    run_room_ops ops self = inr (results, self')
    /\ (forall r, is_Some (rooms self !! r) -> is_Some (rooms self' !! r))
    /\ (forall o r, In o ops -> opened_room o = Some r ->
                    is_Some (rooms self' !! r))
    /\ (forall r, exists members,
           get_room_members r self' = inr (members, self')
           /\ NoDup members
           /\ forall user_id, user_id ∈ members <-> user_id ∈ members_of self' r).
Proof.
  destruct (run_room_ops_keys ops self)
    as (results & self' & Hrun & Hkept & Hopened & _).
  exists results, self'. repeat split; auto.
  intros r. exists (elements (members_of self' r)).
  split; [apply get_room_members_run |]. split.
  - apply NoDup_elements.
  - intros user_id. apply elem_of_elements.
Qed.

(** C10: for a room_id that is not a key of the rooms and that no call
    of a following sequence creates or joins, [get_room_members(room_id)]
    after those calls returns the empty list: it does not raise, it
    returns no failure mapping, and the room is still absent after it. *)
Theorem get_room_members_never_opened ops self room_id :
  rooms self !! room_id = None ->
  Forall (fun o => opened_room o <> Some room_id) ops ->
  exists results self',
    run_room_ops ops self = inr (results, self')
    /\ get_room_members room_id self' = inr ([], self')
    /\ rooms self' !! room_id = None.
Proof.
  intros Habsent Hnever.
  destruct (run_room_ops_keys ops self)
    as (results & self' & Hrun & _ & _ & Hfresh).
  exists results, self'. split; [exact Hrun |].
  specialize (Hfresh room_id Hnever Habsent). split; [| exact Hfresh].
  rewrite get_room_members_run, members_of_absent by exact Hfresh.
  rewrite elements_empty. reflexivity.
Qed.

Lemma get_room_members_never_opened_witness :
  rooms __init__ !! "r2" = None
  /\ Forall (fun o => opened_room o <> Some "r2")
            [JoinRoom "r1" "u1"; LeaveRoom "r1" "u1"; CreateRoom "r3"]
  /\ exists results self',
       run_room_ops [JoinRoom "r1" "u1"; LeaveRoom "r1" "u1"; CreateRoom "r3"]
                    __init__ = inr (results, self')
       /\ get_room_members "r2" self' = inr ([], self')
       /\ rooms self' !! "r2" = None.
Proof.
  assert (Hnever : Forall (fun o => opened_room o <> Some "r2")
                     [JoinRoom "r1" "u1"; LeaveRoom "r1" "u1";
                      CreateRoom "r3"]).
  { repeat constructor; discriminate. }
  split; [reflexivity |]. split; [exact Hnever |].
  apply (get_room_members_never_opened
           [JoinRoom "r1" "u1"; LeaveRoom "r1" "u1"; CreateRoom "r3"]
           __init__ "r2"); [reflexivity | exact Hnever].
Defined.

End RoomClaims.

(** * Further properties of the agents *)

(** ** Strings *)

Lemma lower_ascii_idemp c : lower_ascii (lower_ascii c) = lower_ascii c.
Proof. destruct c as [[] [] [] [] [] [] [] []]; reflexivity. Qed.

Lemma lower_idemp s : lower (lower s) = lower s.
Proof.
  induction s as [| c s IH]; [reflexivity |].
  cbn [lower]. rewrite lower_ascii_idemp, IH. reflexivity.
Qed.

Lemma lower_app s1 s2 : lower (s1 ++ s2) = (lower s1 ++ lower s2)%string.
Proof.
  induction s1 as [| c s1 IH]; [reflexivity |].
  simpl. rewrite IH. reflexivity.
Qed.

Lemma str_in_unfold word s :
  str_in word s
  = (String.prefix word s
     || match s with
        | EmptyString => false
        | String _ s' => str_in word s'
        end)%bool.
Proof. destruct s; reflexivity. Qed.

Lemma prefix_app word s : String.prefix word (word ++ s) = true.
Proof.
  induction word as [| c word IH]; [destruct s; reflexivity |].
  simpl. destruct (ascii_dec c c) as [_ | Hne]; [exact IH | congruence].
Qed.

(** A word occurs in every string built around it. *)
Lemma str_in_app before word after :
  str_in word (before ++ word ++ after) = true.
Proof.
  induction before as [| c before IH].
  - change (str_in word (word ++ after) = true).
    rewrite str_in_unfold, prefix_app. reflexivity.
  - change (str_in word (String c (before ++ word ++ after)) = true).
    rewrite str_in_unfold, IH. apply orb_true_r.
Qed.

Lemma prefix_char a b s :
  String.prefix (String a EmptyString) (String b s)
  = if ascii_dec a b then true else false.
Proof.
  simpl. destruct (ascii_dec a b); [destruct s |]; reflexivity.
Qed.

(** Lower-casing neither removes nor introduces a question mark. *)
Lemma str_in_question_mark_lower s : str_in "?" (lower s) = str_in "?" s.
Proof.
  induction s as [| c s IH]; [reflexivity |].
  cbn [lower]. rewrite (str_in_unfold "?" (String (lower_ascii c) (lower s))).
  rewrite (str_in_unfold "?" (String c s)), IH, !prefix_char. f_equal.
  destruct c as [[] [] [] [] [] [] [] []]; reflexivity.
Qed.

(** ** ConversationAgent: the history as a log *)

Section ConversationLog.
Import ConversationAgent.

Lemma run_conversation_op_keeps o self :
  is_clear o = false ->
  exists v,
    run_conversation_op o self
    = inr (v, {| history := history self ++ added_records [o] |}).
Proof.
  intros Hclear. destruct o as [role content | limit |]; [| | discriminate].
  - cbn [run_conversation_op added_records]. unfold bind at 1.
    rewrite add_message_run. eexists. reflexivity.
  - cbn [run_conversation_op added_records]. unfold bind at 1.
    rewrite get_history_run, app_nil_r. destruct self. eexists. reflexivity.
Qed.

Lemma run_conversation_ops_returns ops self :
  exists results self', run_conversation_ops ops self = inr (results, self').
Proof.
  revert self. induction ops as [| o ops IH]; intros self.
  - eexists _, _. reflexivity.
  - cbn [run_conversation_ops]. unfold bind at 1.
    assert (Hstep : exists v mid, run_conversation_op o self = inr (v, mid)).
    { destruct o; eexists _, _; reflexivity. }
    destruct Hstep as (v & mid & ->).
    destruct (IH mid) as (vs & self' & Hrest).
    unfold bind at 1. rewrite Hrest. eexists _, _. reflexivity.
Qed.

Lemma run_conversation_ops_app ops1 ops2 self results1 mid results2 self' :
  run_conversation_ops ops1 self = inr (results1, mid) ->
  run_conversation_ops ops2 mid = inr (results2, self') ->
  run_conversation_ops (ops1 ++ ops2) self
  = inr ((results1 ++ results2)%list, self').
Proof.
  revert self results1. induction ops1 as [| o ops1 IH]; intros self results1.
  - intros [= <- <-] Hrest. exact Hrest.
  - intros Hfirst Hrest. cbn [run_conversation_ops app] in Hfirst |- *.
    unfold bind in Hfirst |- *.
    destruct (run_conversation_op o self) as [e | [v next]]; [discriminate |].
    destruct (run_conversation_ops ops1 next) as [e | [vs mid']] eqn:Hops1;
      [discriminate |].
    unfold ret in Hfirst. injection Hfirst as <- <-.
    rewrite (IH next vs Hops1 Hrest). reflexivity.
Qed.

(** Calls other than [clear_history] only append to the history. *)
Lemma run_conversation_ops_appends ops self :
  forallb (fun o => negb (is_clear o)) ops = true ->
  exists results self',
    run_conversation_ops ops self = inr (results, self')
    /\ history self' = (history self ++ added_records ops)%list
    /\ length results = length ops.
Proof.
  revert self. induction ops as [| o ops IH]; intros self Hnoclear.
  - exists [], self. cbn [added_records]. rewrite app_nil_r. auto.
  - cbn [forallb] in Hnoclear. apply andb_prop in Hnoclear as [Ho Hrest].
    apply negb_true_iff in Ho.
    destruct (run_conversation_op_keeps o self Ho) as [v Hstep].
    destruct (IH {| history := history self ++ added_records [o] |} Hrest)
      as (vs & self' & Hrun & Hhistory & Hlength).
    exists (v :: vs), self'. split; [| split].
    + cbn [run_conversation_ops]. unfold bind at 1. rewrite Hstep.
      unfold bind at 1. rewrite Hrun. reflexivity.
    + rewrite Hhistory. cbn [history]. rewrite <- app_assoc. f_equal.
      destruct o as [role content | limit |]; reflexivity.
    + cbn [length]. rewrite Hlength. reflexivity.
Qed.

(** X1: the history is an append-only log.  Along every sequence of
    [add_message] and [get_history] calls (no [clear_history]), from every
    state, the history afterwards is the history before followed by the
    records of the [add_message] calls in call order: no record that was
    there is changed or dropped, and [get_history] adds and removes
    nothing. *)
Theorem history_append_only ops self :
  forallb (fun o => negb (is_clear o)) ops = true ->
  exists results self',
    run_conversation_ops ops self = inr (results, self')
    /\ history self' = (history self ++ added_records ops)%list
    /\ length results = length ops.
Proof.
  intros Hnoclear. apply run_conversation_ops_appends. exact Hnoclear.
Qed.

Lemma history_append_only_witness :
  exists results self',
    run_conversation_ops
      [AddMessage "user" "a"; GetHistory 0; AddMessage "assistant" "b"]
      {| history := [to_message ("user", "z")] |} = inr (results, self')
    /\ history self'
       = ([to_message ("user", "z")]
          ++ added_records
               [AddMessage "user" "a"; GetHistory 0;
                AddMessage "assistant" "b"])%list
    /\ length results = 3%nat.
Proof.
  apply (history_append_only
           [AddMessage "user" "a"; GetHistory 0; AddMessage "assistant" "b"]
           {| history := [to_message ("user", "z")] |}).
  reflexivity.
Defined.

(** X2: [clear_history] forgets everything before it.  After any calls,
    then [clear_history], then calls without [clear_history], the history
    holds exactly the records added since the clear, whatever the state
    and the calls before it were. *)
Theorem history_since_clear before since self :
  forallb (fun o => negb (is_clear o)) since = true ->
  exists results self',
    run_conversation_ops (before ++ ClearHistory :: since) self
    = inr (results, self')
    /\ history self' = added_records since.
Proof.
  intros Hnoclear.
  destruct (run_conversation_ops_returns before self)
    as (results1 & mid & Hbefore).
  destruct (run_conversation_ops_appends since {| history := [] |} Hnoclear)
    as (results2 & self' & Hsince & Hhistory & _).
  eexists _, self'. split; [| exact Hhistory].
  eapply run_conversation_ops_app; [exact Hbefore |].
  cbn [run_conversation_ops run_conversation_op]. unfold bind at 1.
  unfold bind at 1. unfold clear_history at 1. unfold bind at 1.
  unfold get at 1. unfold bind at 1. unfold put at 1. unfold ret at 1 2.
  unfold bind at 1. rewrite Hsince. reflexivity.
Qed.

Lemma history_since_clear_witness :
  exists results self',
    run_conversation_ops
      ([AddMessage "user" "a"; ClearHistory; AddMessage "user" "b"]
       ++ ClearHistory :: [AddMessage "user" "c"; GetHistory 5])
      __init__ = inr (results, self')
    /\ history self' = added_records [AddMessage "user" "c"; GetHistory 5].
Proof.
  apply (history_since_clear
           [AddMessage "user" "a"; ClearHistory; AddMessage "user" "b"]
           [AddMessage "user" "c"; GetHistory 5] __init__).
  reflexivity.
Defined.

End ConversationLog.

(** ** ConversationAgent: the window [get_history] returns *)

Section ConversationWindow.
Import ConversationAgent.

(** X3: a [limit] of at least 1 that is not smaller than the number of
    records returns the whole history, unchanged and in order. *)
Theorem get_history_whole limit self :
  1 <= limit ->
  Z.of_nat (length (history self)) <= limit ->
  get_history limit self = inr (history self, self).
Proof.
  intros Hlimit Hall. rewrite get_history_run, slice_from_neg by assumption.
  rewrite Z.min_r, Nat2Z.id, Nat.sub_diag by lia. reflexivity.
Qed.

Lemma get_history_whole_witness :
  get_history 10
    {| history := [to_message ("user", "a"); to_message ("user", "b")] |}
  = inr ([to_message ("user", "a"); to_message ("user", "b")],
         {| history := [to_message ("user", "a"); to_message ("user", "b")] |}).
Proof.
  apply (get_history_whole 10
           {| history := [to_message ("user", "a");
                          to_message ("user", "b")] |}).
  - lia.
  - simpl. lia.
Defined.

(** X4: windows are nested.  For [1 <= limit1 <= limit2], what
    [get_history(limit1)] returns is the tail end of what
    [get_history(limit2)] returns: raising the limit only adds older
    records in front. *)
Theorem get_history_nested limit1 limit2 self :
  1 <= limit1 -> limit1 <= limit2 ->
  exists window1 window2 older,
    get_history limit1 self = inr (window1, self)
    /\ get_history limit2 self = inr (window2, self)
    /\ window2 = (older ++ window1)%list.
Proof.
  intros Hone Hle. rewrite !get_history_run.
  rewrite !slice_from_neg by lia.
  set (h := history self).
  set (n1 := (length h - Z.to_nat (Z.min limit1 (Z.of_nat (length h))))%nat).
  set (n2 := (length h - Z.to_nat (Z.min limit2 (Z.of_nat (length h))))%nat).
  exists (drop n1 h), (drop n2 h), (take (n1 - n2) (drop n2 h)).
  split; [reflexivity |]. split; [reflexivity |].
  rewrite <- (take_drop (n1 - n2) (drop n2 h)) at 1.
  rewrite drop_drop. do 2 f_equal. subst n1 n2. lia.
Qed.

Lemma get_history_nested_witness :
  exists window1 window2 older,
    get_history 1
      {| history := [to_message ("user", "a"); to_message ("user", "b")] |}
    = inr (window1,
           {| history := [to_message ("user", "a");
                          to_message ("user", "b")] |})
    /\ get_history 2
         {| history := [to_message ("user", "a"); to_message ("user", "b")] |}
       = inr (window2,
              {| history := [to_message ("user", "a");
                             to_message ("user", "b")] |})
    /\ window2 = (older ++ window1)%list.
Proof.
  apply (get_history_nested 1 2
           {| history := [to_message ("user", "a");
                          to_message ("user", "b")] |}); lia.
Defined.

(** X5: the record just added is the last one returned.  After
    [add_message(role, content)], from every state, [get_history(limit)]
    with [limit >= 1] returns a window that ends with the record
    [{role, content}]. *)
Theorem get_history_ends_with_latest role content limit self :
  1 <= limit ->
  exists window self',
    (let* _ := add_message role content in get_history limit) self
    = inr (window, self')
    /\ last window = Some (to_message (role, content)).
Proof.
  intros Hlimit. unfold bind. rewrite add_message_run, get_history_run.
  eexists _, _. split; [reflexivity |].
  rewrite slice_from_neg by assumption. cbn [history].
  rewrite drop_app_le by (rewrite length_app; cbn [length]; lia).
  apply last_snoc.
Qed.

Lemma get_history_ends_with_latest_witness :
  exists window self',
    (let* _ := add_message "user" "hi" in get_history 1)
      {| history := [to_message ("assistant", "old")] |}
    = inr (window, self')
    /\ last window = Some (to_message ("user", "hi")).
Proof.
  apply (get_history_ends_with_latest "user" "hi" 1
           {| history := [to_message ("assistant", "old")] |}).
  lia.
Defined.

(** X6: with [limit <= 0] the slice [[-limit:]] is taken from the front.
    [get_history(limit)] then returns the history without its first
    [-limit] records, that is [max(0, N + limit)] records of a history of
    [N]: the whole history for [limit = 0], and nothing once [-limit]
    reaches [N]. *)
Theorem get_history_nonpositive_window limit self :
  limit <= 0 ->
  exists window,
    get_history limit self = inr (window, self)
    /\ window = drop (Z.to_nat (- limit)) (history self)
    /\ Z.of_nat (length window)
       = Z.max 0 (Z.of_nat (length (history self)) + limit).
Proof.
  intros Hlimit. eexists. split; [| split].
  - apply get_history_nonpositive_limit. exact Hlimit.
  - reflexivity.
  - rewrite length_drop. lia.
Qed.

Lemma get_history_nonpositive_window_witness :
  exists window,
    get_history (-1)
      {| history := [to_message ("user", "a"); to_message ("user", "b")] |}
    = inr (window,
           {| history := [to_message ("user", "a");
                          to_message ("user", "b")] |})
    /\ window
       = drop (Z.to_nat (- (-1)))
           [to_message ("user", "a"); to_message ("user", "b")]
    /\ Z.of_nat (length window) = Z.max 0 (Z.of_nat 2 + -1).
Proof.
  apply (get_history_nonpositive_window (-1)
           {| history := [to_message ("user", "a");
                          to_message ("user", "b")] |}).
  lia.
Defined.

End ConversationWindow.

(** ** IntentClassifierAgent: how messages are matched *)

Section Classifier.
Import IntentClassifierAgent.

(** X7: the classification ignores the case of the ASCII letters.  Two
    messages that are equal once the capitals A-Z are folded to a-z (the
    fold [lower] of this file; case pairs outside ASCII are not folded
    and are not covered) get the same intent and confidence: this holds
    for the keyword tests, made on the lower-cased message, and for the
    question-mark test, made on the message itself. *)
Theorem classify_intent_ignores_case message1 message2 self :
  lower message1 = lower message2 ->
  classify_intent message1 self = classify_intent message2 self.
Proof.
  intros Hlower. unfold classify_intent. rewrite Hlower.
  rewrite <- (str_in_question_mark_lower message1), Hlower.
  rewrite str_in_question_mark_lower. reflexivity.
Qed.

Lemma classify_intent_ignores_case_witness :
  classify_intent "Good BYE, friend?" tt
  = classify_intent "good bye, FRIEND?" tt.
Proof.
  apply (classify_intent_ignores_case
           "Good BYE, friend?" "good bye, FRIEND?" tt).
  reflexivity.
Defined.

(** X8: keywords match as substrings and greetings win.  A message that
    contains "hello", "hi" or "hey" anywhere, in any letter case, also
    inside a longer word, is classified as a greeting with confidence 0.9,
    whatever else it contains (a farewell keyword, a question mark). *)
Theorem classify_intent_greeting_substring before word after self :
  In (lower word) ["hello"; "hi"; "hey"] ->
  classify_intent (before ++ word ++ after) self
  = inr ([("intent", VStr "greeting"); ("confidence", VFloat 0.9)], self).
Proof.
  intros Hword. unfold classify_intent.
  assert (Hfound :
            existsb (fun w => str_in w (lower (before ++ word ++ after)))
                    ["hello"; "hi"; "hey"] = true).
  { apply existsb_exists. exists (lower word). split; [exact Hword |].
    rewrite !lower_app. apply str_in_app. }
  rewrite Hfound. reflexivity.
Qed.

Lemma classify_intent_greeting_substring_witness :
  classify_intent ("Is t" ++ "HI" ++ "S goodbye?") tt
  = inr ([("intent", VStr "greeting"); ("confidence", VFloat 0.9)], tt).
Proof.
  apply (classify_intent_greeting_substring "Is t" "HI" "S goodbye?" tt).
  right. left. reflexivity.
Defined.

(** Every classification is one of four (intent, confidence) pairs. *)
Lemma classify_intent_range message :
  exists intent confidence,
    (forall self,
       classify_intent message self
       = inr ([("intent", VStr intent); ("confidence", VFloat confidence)],
              self))
    /\ In (intent, confidence)
          [("greeting", 0.9%Q); ("farewell", 0.9%Q);
           ("question", 0.7%Q); ("statement", 0.6%Q)].
Proof.
  unfold classify_intent.
  destruct (existsb _ ["hello"; "hi"; "hey"]);
    [| destruct (existsb _ ["bye"; "goodbye"; "see you"]);
       [| destruct (str_in "?" message)]];
    eexists _, _; (split; [intros self; reflexivity |]).
  - left. reflexivity.
  - right. left. reflexivity.
  - do 2 right. left. reflexivity.
  - do 3 right. left. reflexivity.
Qed.

End Classifier.

(** ** ResponseGeneratorAgent: every message *)

Section Responses.
Import ResponseGeneratorAgent.

(** What a call of [generate_response] returns and leaves behind. *)
Lemma generate_response_effect message b :
  exists intent confidence text,
    (forall self,
       IntentClassifierAgent.classify_intent message self
       = inr ([("intent", VStr intent); ("confidence", VFloat confidence)],
              self))
    /\ In (intent, text) responses
    /\ text <> "I'm not sure how to respond to that."
    /\ generate_response message b
       = inr ([("response", VStr text); ("intent", VStr intent);
               ("confidence", VFloat confidence)],
              set_conversation_agent
                {| ConversationAgent.history :=
                     ConversationAgent.history (conversation_agent b)
                     ++ [to_message ("user", message);
                         to_message ("assistant", text)] |}
                b).
Proof.
  destruct (classify_intent_range message)
    as (intent & confidence & Hclassify & Hrange).
  assert (Htext : exists text,
             In (intent, text) responses
             /\ text <> "I'm not sure how to respond to that."
             /\ dict_get responses intent
                         "I'm not sure how to respond to that." = text).
  { destruct Hrange as [[= <- <-] | [[= <- <-] | [[= <- <-] | [[= <- <-] | []]]]];
      eexists; (split; [| split; [| reflexivity]]);
      [ left; reflexivity | discriminate
      | right; left; reflexivity | discriminate
      | do 2 right; left; reflexivity | discriminate
      | do 3 right; left; reflexivity | discriminate ]. }
  destruct Htext as (text & Hin & Hfallback & Hget).
  exists intent, confidence, text.
  split; [exact Hclassify |]. split; [exact Hin |]. split; [exact Hfallback |].
  unfold generate_response.
  unfold bind at 1. rewrite invoke_classify_intent, Hclassify.
  cbv beta iota. rewrite set_intent_classifier_agent_id.
  unfold bind at 1. cbn [result_get dict_get String.eqb Ascii.eqb Bool.eqb].
  unfold ret at 1. unfold bind at 1.
  cbn [responses_get]. rewrite Hget. unfold ret at 1.
  unfold bind at 1. rewrite invoke_add_message.
  unfold bind at 1. rewrite invoke_add_message.
  destruct b as [[h] c r]. unfold bind, ret, result_get.
  cbn [dict_get String.eqb Ascii.eqb Bool.eqb].
  unfold set_conversation_agent. cbn [conversation_agent
    intent_classifier_agent room_manager ConversationAgent.history].
  rewrite <- app_assoc. reflexivity.
Qed.

(** X9: [generate_response] on every message, from every state of the
    bus.  It returns without raising; the "intent" and "confidence" it
    reports are the classifier's; the "response" is the entry of the
    response table for that intent, never the fallback text; and the
    conversation history grows by exactly two records, the user record
    with the message and then the assistant record with the response,
    while the records before them and the other agents are untouched. *)
Theorem generate_response_run message b :
  exists intent confidence text,
    (forall self,
       IntentClassifierAgent.classify_intent message self
       = inr ([("intent", VStr intent); ("confidence", VFloat confidence)],
              self))
    /\ In (intent, text) responses
    /\ text <> "I'm not sure how to respond to that."
    /\ generate_response message b
       = inr ([("response", VStr text); ("intent", VStr intent);
               ("confidence", VFloat confidence)],
              set_conversation_agent
                {| ConversationAgent.history :=
                     ConversationAgent.history (conversation_agent b)
                     ++ [to_message ("user", message);
                         to_message ("assistant", text)] |}
                b).
Proof. apply generate_response_effect. Qed.

(** X10: after [generate_response(message)], [get_history(2)] on the
    conversation agent returns exactly the exchange just made: the user
    record with the message, then the assistant record with the response
    text that was returned. *)
Theorem generate_response_then_history message b :
  exists text intent confidence b',
    generate_response message b
    = inr ([("response", VStr text); ("intent", intent);
            ("confidence", confidence)], b')
    /\ ConversationAgent.get_history 2 (conversation_agent b')
       = inr ([ [("role", "user"); ("content", message)];
                [("role", "assistant"); ("content", text)] ],
              conversation_agent b').
Proof.
  destruct (generate_response_effect message b)
    as (intent & confidence & text & _ & _ & _ & Hrun).
  eexists text, _, _, _. split; [exact Hrun |].
  rewrite get_history_run. cbn [conversation_agent set_conversation_agent
    ConversationAgent.history].
  rewrite slice_from_neg by lia. f_equal. f_equal.
  rewrite length_app. cbn [length].
  rewrite Z.min_l by lia.
  replace (length (ConversationAgent.history (conversation_agent b)) + 2
           - Z.to_nat 2)%nat
    with (length (ConversationAgent.history (conversation_agent b))) by lia.
  apply drop_app_length.
Qed.

End Responses.

(** ** RoomManager: what each call changes *)

Section RoomEffects.
Import RoomManager.
Implicit Types (self : t) (room_id user_id : string) (members : gset string).

Lemma members_of_insert_ne rs room_id members r :
  room_id <> r ->
  members_of {| rooms := <[room_id := members]> rs |} r
  = members_of {| rooms := rs |} r.
Proof.
  intros Hne. unfold members_of. cbn [rooms].
  rewrite (lookup_insert_ne rs room_id r) by exact Hne. reflexivity.
Qed.

Lemma member_is_in_room self room_id user_id :
  user_id ∈ members_of self room_id ->
  exists members,
    rooms self !! room_id = Some members /\ user_id ∈ members.
Proof.
  unfold members_of. destruct (rooms self !! room_id) as [members |].
  - intros Hin. exists members. auto.
  - intros Hin. apply not_elem_of_empty in Hin. destruct Hin.
Qed.

Lemma add_then_remove members user_id :
  user_id ∉ members -> (members ∪ {[user_id]}) ∖ {[user_id]} = members.
Proof.
  intros Hnot. apply set_eq. intros x.
  rewrite elem_of_difference, elem_of_union, elem_of_singleton.
  split; [intros [[Hx | ->] Hne]; [exact Hx | congruence] |].
  intros Hx. split; [left; exact Hx | intros ->; contradiction].
Qed.

Lemma remove_then_add members user_id :
  user_id ∈ members -> members ∖ {[user_id]} ∪ {[user_id]} = members.
Proof.
  intros Hin. apply set_eq. intros x.
  rewrite elem_of_union, elem_of_difference, elem_of_singleton.
  split; [intros [[Hx _] | ->]; assumption |].
  intros Hx. destruct (decide (x = user_id)); auto.
Qed.

(** X11: [create_room] on a room_id that is not a key succeeds and adds
    the room with no member; every other room keeps its members; and a
    second [create_room] of the same room_id fails with "Room already
    exists" and changes nothing. *)
Theorem create_room_fresh self room_id :
  rooms self !! room_id = None ->
  exists self',
    create_room room_id self
    = inr ([("success", VBool true); ("room_id", VStr room_id)], self')
    /\ rooms self' !! room_id = Some ∅
    /\ (forall r, r <> room_id -> rooms self' !! r = rooms self !! r)
    /\ create_room room_id self'
       = inr ([("success", VBool false);
               ("error", VStr "Room already exists")], self').
Proof.
  intros Habsent. eexists. split; [| split; [| split]].
  - rewrite create_room_run, Habsent. reflexivity.
  - apply lookup_insert_eq.
  - intros r Hne. cbn [rooms]. apply lookup_insert_ne. congruence.
  - rewrite create_room_run. cbn [rooms].
    rewrite (lookup_insert_eq (rooms self) room_id). reflexivity.
Qed.

Lemma create_room_fresh_witness :
  exists self',
    create_room "r2" {| rooms := {[ "r1" := {[ "u1" ]} ]} |}
    = inr ([("success", VBool true); ("room_id", VStr "r2")], self')
    /\ rooms self' !! "r2" = Some ∅
    /\ (forall r, r <> "r2" ->
                  rooms self' !! r
                  = rooms {| rooms := {[ "r1" := {[ "u1" ]} ]} |} !! r)
    /\ create_room "r2" self'
       = inr ([("success", VBool false);
               ("error", VStr "Room already exists")], self').
Proof.
  apply (create_room_fresh {| rooms := {[ "r1" := {[ "u1" ]} ]} |} "r2").
  reflexivity.
Defined.

(** X12: [join_room(room_id, user_id)] succeeds from every state and adds
    exactly that membership: afterwards a user is in a room if and only if
    they were in it before or they are [user_id] and the room is
    [room_id].  No other room and no other member is touched. *)
Theorem join_room_adds_one_membership self room_id user_id :
  exists member_count self',
    join_room room_id user_id self
    = inr ([("success", VBool true); ("room_id", VStr room_id);
            ("user_id", VStr user_id);
            ("member_count", VInt member_count)], self')
    /\ is_Some (rooms self' !! room_id)
    /\ forall r u,
         u ∈ members_of self' r
         <-> u ∈ members_of self r \/ (r = room_id /\ u = user_id).
Proof.
  eexists _, _. split; [apply join_room_run |]. split.
  - cbn [rooms]. rewrite (lookup_insert_eq (rooms self) room_id). eauto.
  - intros r u. destruct self as [rs]. cbn [rooms].
    destruct (decide (room_id = r)) as [<- | Hne].
    + rewrite members_of_insert, elem_of_union, elem_of_singleton.
      split; [intros [Hold | ->]; auto |].
      intros [Hold | [_ ->]]; auto.
    + rewrite members_of_insert_ne by exact Hne.
      split; [auto |]. intros [Hold | [-> _]]; [exact Hold | congruence].
Qed.

(** X13: the member_count that [join_room] returns is the number of
    members the room had, plus one if [user_id] was not yet among them (an
    absent room counting as empty), and unchanged if they were. *)
Theorem join_room_member_count self room_id user_id :
  exists self',
    join_room room_id user_id self
    = inr ([("success", VBool true); ("room_id", VStr room_id);
            ("user_id", VStr user_id);
            ("member_count",
             VInt (Z.of_nat (size (members_of self room_id))
                   + if bool_decide (user_id ∈ members_of self room_id)
                     then 0 else 1))], self').
Proof.
  assert (Hsize :
            Z.of_nat (size (members_of self room_id ∪ {[user_id]}))
            = Z.of_nat (size (members_of self room_id))
              + if bool_decide (user_id ∈ members_of self room_id)
                then 0 else 1).
  { destruct (bool_decide (user_id ∈ members_of self room_id)) eqn:Hmember.
    - apply bool_decide_eq_true_1 in Hmember.
      rewrite (comm_L (∪)), subseteq_union_1_L; [lia |].
      apply singleton_subseteq_l. exact Hmember.
    - apply bool_decide_eq_false_1 in Hmember.
      rewrite size_union, size_singleton; [lia |].
      apply disjoint_singleton_r. exact Hmember. }
  eexists. rewrite join_room_run, Hsize. reflexivity.
Qed.

(** X14: [leave_room(room_id, user_id)] by a member succeeds and removes
    exactly that membership: afterwards a user is in a room if and only if
    they were in it before and they are not [user_id] in [room_id].  The
    room stays a key even when it becomes empty, and a second
    [leave_room] by the same user fails and changes nothing. *)
Theorem leave_room_removes_one_membership self room_id user_id :
  user_id ∈ members_of self room_id ->
  exists self',
    leave_room room_id user_id self = inr ([("success", VBool true)], self')
    /\ is_Some (rooms self' !! room_id)
    /\ (forall r u,
          u ∈ members_of self' r
          <-> u ∈ members_of self r /\ ~ (r = room_id /\ u = user_id))
    /\ leave_room room_id user_id self'
       = inr ([("success", VBool false); ("error", VStr "User not in room")],
              self').
Proof.
  intros Hmember. eexists. split; [| split; [| split]].
  - rewrite leave_room_run, bool_decide_eq_true_2 by exact Hmember.
    reflexivity.
  - cbn [rooms]. rewrite (lookup_insert_eq (rooms self) room_id). eauto.
  - intros r u. destruct self as [rs]. cbn [rooms].
    destruct (decide (room_id = r)) as [<- | Hne].
    + rewrite members_of_insert, elem_of_difference, elem_of_singleton.
      split; [intros [Hold Hu]; split; [exact Hold | intros [_ ->]; auto] |].
      intros [Hold Hu]. split; [exact Hold | intros ->; auto].
    + rewrite members_of_insert_ne by exact Hne.
      split; [intros Hold; split; [exact Hold | intros [-> _]; congruence] |].
      intros [Hold _]. exact Hold.
  - rewrite leave_room_run. destruct self as [rs]. cbn [rooms].
    rewrite members_of_insert, bool_decide_eq_false_2; [reflexivity |].
    rewrite elem_of_difference, elem_of_singleton. intros [_ Hne]. auto.
Qed.

Lemma leave_room_removes_one_membership_witness :
  exists self',
    leave_room "r1" "u1" {| rooms := {[ "r1" := {[ "u1" ]} ]} |}
    = inr ([("success", VBool true)], self')
    /\ is_Some (rooms self' !! "r1")
    /\ (forall r u,
          u ∈ members_of self' r
          <-> u ∈ members_of {| rooms := {[ "r1" := {[ "u1" ]} ]} |} r
              /\ ~ (r = "r1" /\ u = "u1"))
    /\ leave_room "r1" "u1" self'
       = inr ([("success", VBool false); ("error", VStr "User not in room")],
              self').
Proof.
  apply (leave_room_removes_one_membership
           {| rooms := {[ "r1" := {[ "u1" ]} ]} |} "r1" "u1").
  apply elem_of_singleton. reflexivity.
Defined.

End RoomEffects.

(** ** RoomManager: round trips and listings *)

Section RoomRoundTrips.
Import RoomManager.
Implicit Types (self : t) (room_id user_id : string) (members : gset string).

(** X15: joining and leaving again undoes itself.  When the room exists
    and [user_id] is not in it, [join_room] followed by [leave_room] of
    the same user succeeds and leaves the rooms exactly as they were. *)
Theorem join_then_leave_restores self room_id user_id members :
  rooms self !! room_id = Some members ->
  user_id ∉ members ->
  (let* _ := join_room room_id user_id in leave_room room_id user_id) self
  = inr ([("success", VBool true)], self).
Proof.
  intros Hlookup Hnot. unfold bind. rewrite join_room_run, leave_room_run.
  rewrite (members_of_lookup _ _ _ Hlookup).
  destruct self as [rs]. cbn [rooms] in Hlookup |- *.
  rewrite members_of_insert, bool_decide_eq_true_2
    by (apply elem_of_union_r, elem_of_singleton; reflexivity).
  rewrite (insert_insert_eq rs room_id), add_then_remove by exact Hnot.
  rewrite (insert_id rs room_id members Hlookup). reflexivity.
Qed.

Lemma join_then_leave_restores_witness :
  (let* _ := join_room "r1" "u2" in leave_room "r1" "u2")
    {| rooms := {[ "r1" := {[ "u1" ]} ]} |}
  = inr ([("success", VBool true)], {| rooms := {[ "r1" := {[ "u1" ]} ]} |}).
Proof.
  apply (join_then_leave_restores
           {| rooms := {[ "r1" := {[ "u1" ]} ]} |} "r1" "u2" {[ "u1" ]}).
  - reflexivity.
  - intros Hin. apply elem_of_singleton in Hin. discriminate.
Defined.

(** X16: on a room_id that is not a key, [join_room] followed by
    [leave_room] of the same user does not restore the state: the room
    that [join_room] created stays, empty, and the rooms are then exactly
    as [create_room(room_id)] would have left them. *)
Theorem join_then_leave_absent_room self room_id user_id :
  rooms self !! room_id = None ->
  exists self',
    (let* _ := join_room room_id user_id in leave_room room_id user_id) self
    = inr ([("success", VBool true)], self')
    /\ create_room room_id self
       = inr ([("success", VBool true); ("room_id", VStr room_id)], self')
    /\ rooms self' !! room_id = Some ∅.
Proof.
  intros Habsent. exists {| rooms := <[room_id := ∅]> (rooms self) |}.
  split; [| split].
  - unfold bind. rewrite join_room_run, leave_room_run.
    rewrite (members_of_absent _ _ Habsent).
    destruct self as [rs]. cbn [rooms].
    rewrite members_of_insert, bool_decide_eq_true_2
      by (apply elem_of_union_r, elem_of_singleton; reflexivity).
    rewrite (insert_insert_eq rs room_id), add_then_remove
      by apply not_elem_of_empty.
    reflexivity.
  - rewrite create_room_run, Habsent. reflexivity.
  - apply lookup_insert_eq.
Qed.

Lemma join_then_leave_absent_room_witness :
  exists self',
    (let* _ := join_room "r1" "u1" in leave_room "r1" "u1") __init__
    = inr ([("success", VBool true)], self')
    /\ create_room "r1" __init__
       = inr ([("success", VBool true); ("room_id", VStr "r1")], self')
    /\ rooms self' !! "r1" = Some ∅.
Proof.
  apply (join_then_leave_absent_room __init__ "r1" "u1"). reflexivity.
Defined.

(** X17: leaving and joining again undoes itself.  When [user_id] is a
    member of the room, [leave_room] followed by [join_room] of the same
    user leaves the rooms exactly as they were, and the member_count
    returned is the one the room had. *)
Theorem leave_then_join_restores self room_id user_id members :
  rooms self !! room_id = Some members ->
  user_id ∈ members ->
  (let* _ := leave_room room_id user_id in join_room room_id user_id) self
  = inr ([("success", VBool true); ("room_id", VStr room_id);
          ("user_id", VStr user_id);
          ("member_count", VInt (Z.of_nat (size members)))], self).
Proof.
  intros Hlookup Hin. unfold bind. rewrite leave_room_run.
  rewrite (members_of_lookup _ _ _ Hlookup).
  rewrite bool_decide_eq_true_2 by exact Hin.
  rewrite join_room_run. destruct self as [rs]. cbn [rooms] in Hlookup |- *.
  rewrite members_of_insert, remove_then_add by exact Hin.
  rewrite (insert_insert_eq rs room_id).
  rewrite (insert_id rs room_id members Hlookup). reflexivity.
Qed.

Lemma leave_then_join_restores_witness :
  (let* _ := leave_room "r1" "u1" in join_room "r1" "u1")
    {| rooms := {[ "r1" := {[ "u1" ]} ]} |}
  = inr ([("success", VBool true); ("room_id", VStr "r1");
          ("user_id", VStr "u1");
          ("member_count", VInt (Z.of_nat (size ({[ "u1" ]} : gset string))))],
         {| rooms := {[ "r1" := {[ "u1" ]} ]} |}).
Proof.
  apply (leave_then_join_restores
           {| rooms := {[ "r1" := {[ "u1" ]} ]} |} "r1" "u1" {[ "u1" ]}).
  - reflexivity.
  - apply elem_of_singleton. reflexivity.
Defined.

(** X18: [list_rooms] lists exactly the rooms.  It changes nothing and
    returns one record per key of the rooms mapping: a record
    [{room_id, member_count}] is in the list if and only if [room_id] is
    a key and [member_count] is the number of its members, empty rooms
    included; on a manager without rooms the list is empty. *)
Theorem list_rooms_exact self :
  exists listed,
    list_rooms self = inr (listed, self)
    /\ length listed = size (rooms self)
    /\ forall room_id member_count,
         In [("room_id", VStr room_id); ("member_count", VInt member_count)]
            listed
         <-> exists members,
               rooms self !! room_id = Some members
               /\ member_count = Z.of_nat (size members).
Proof.
  eexists. split; [reflexivity |]. split.
  - rewrite length_map. apply length_map_to_list.
  - intros room_id member_count. rewrite in_map_iff. split.
    + intros ([r members] & [= <- <-] & Hin).
      exists members. split; [| reflexivity].
      apply elem_of_map_to_list, list_elem_of_In. exact Hin.
    + intros (members & Hlookup & ->). exists (room_id, members).
      split; [reflexivity |].
      apply list_elem_of_In, elem_of_map_to_list. exact Hlookup.
Qed.

(** X19: [get_room_members] agrees with [join_room].  Right after
    [join_room(room_id, user_id)], [get_room_members(room_id)] returns a
    list without repetition that contains [user_id] and whose length is
    the member_count that [join_room] returned. *)
Theorem join_room_then_members self room_id user_id :
  exists member_count joined listed,
    join_room room_id user_id self
    = inr ([("success", VBool true); ("room_id", VStr room_id);
            ("user_id", VStr user_id);
            ("member_count", VInt member_count)], joined)
    /\ get_room_members room_id joined = inr (listed, joined)
    /\ user_id ∈ listed
    /\ NoDup listed
    /\ Z.of_nat (length listed) = member_count.
Proof.
  eexists _, _, _. split; [apply join_room_run |].
  split; [apply get_room_members_run |].
  destruct self as [rs]. cbn [rooms]. rewrite members_of_insert.
  split; [| split].
  - apply elem_of_elements, elem_of_union_r, elem_of_singleton. reflexivity.
  - apply NoDup_elements.
  - reflexivity.
Qed.

End RoomRoundTrips.
